(** * LNURLPay screen: a shallow embedding of src/app/screens/LNURLPay.tsx

    The screen is a React component.  Its state hooks become the fields of
    a record, its handlers become functions that return the list of
    external effects they perform, and the two [await] points of
    [confirm] become the settle actions of a small transition system, so
    that several invocations of [confirm] can be in flight at once.

    JavaScript numbers are IEEE-754 binary64 values and are modelled by
    Rocq's primitive floats, which compute with the same arithmetic. *)

From Stdlib Require Import ZArith Floats String Ascii List Bool Lia.
From stdpp Require Import list.
Import ListNotations.

Local Open Scope string_scope.
Local Open Scope list_scope.

(** ** JavaScript values *)

Module Js.

(** A value that is either a string or [undefined]. *)
Definition ostring := option string.

(** Template-literal conversion of such a value. *)
Definition to_string (v : ostring) : string :=
  match v with
  | Some s => s
  | None => "undefined"
  end.

(** Truthiness of a string-or-undefined value: the empty string and
    [undefined] are falsy. *)
Definition truthy (v : ostring) : bool :=
  match v with
  | Some EmptyString => false
  | Some (String _ _) => true
  | None => false
  end.

(** Truthiness of a number: [0], [-0] and [NaN] are falsy. *)
Definition truthy_num (x : float) : bool :=
  negb (PrimFloat.eqb x PrimFloat.zero || PrimFloat.is_nan x).

(** A thrown value, reduced to what the screen reads of it: [e.message]. *)
Record error := Error { message : ostring }.

(** *** Number(string), for decimal literals

    [e.target.value * 1000] and [valueMSat / 1000] convert a string
    operand to a number first.  The conversion below covers what a
    number or range input can deliver: the empty string (0) and decimal
    literals with optional sign, fraction and exponent, each rounded to
    the nearest double.  Every other string converts to [NaN]; the
    white space, [Infinity] and radix-prefixed forms that JavaScript
    also accepts are not produced by these inputs and are left out. *)

Definition digit_of (c : ascii) : option Z :=
  let n := Z.of_nat (nat_of_ascii c) in
  if ((48 <=? n) && (n <=? 57))%Z then Some (n - 48)%Z else None.

(** Reads a run of digits: accumulated value, number of digits, rest. *)
Fixpoint digits (acc : Z) (len : nat) (s : string) : Z * nat * string :=
  match s with
  | EmptyString => (acc, len, s)
  | String c rest =>
      match digit_of c with
      | Some d => digits (10 * acc + d)%Z (S len) rest
      | None => (acc, len, s)
      end
  end.

Definition sign (s : string) : bool * string :=
  match s with
  | String "-" rest => (true, rest)
  | String "+" rest => (false, rest)
  | _ => (false, s)
  end.

(** The exponent part, when there is one: its value and the rest. *)
Definition exponent (s : string) : option (Z * string) :=
  match s with
  | String c rest =>
      if (Ascii.eqb c "e" || Ascii.eqb c "E")%bool then
        let '(neg, rest1) := sign rest in
        let '(v, len, rest2) := digits 0 0 rest1 in
        match len with
        | O => None
        | S _ => Some (if neg then (- v)%Z else v, rest2)
        end
      else None
  | EmptyString => Some (0%Z, EmptyString)
  end.

(** The double nearest to [m * 10 ^ e], for [m >= 0]. *)
Definition nearest (m e : Z) : float :=
  match m with
  | Zpos p =>
      if (0 <=? e)%Z
      then SF2Prim (binary_normalize prec emax (m * 10 ^ e) 0 false)
      else SF2Prim (SFdiv prec emax (S754_finite false p 0)
                      (S754_finite false (Z.to_pos (10 ^ (- e))) 0))
  | _ => PrimFloat.zero
  end.

Definition to_number (s : string) : float :=
  match s with
  | EmptyString => PrimFloat.zero
  | _ =>
      let '(neg, s1) := sign s in
      let '(ip, ilen, s2) := digits 0 0 s1 in
      let '(m, flen, s3) :=
        match s2 with
        | String "." rest => digits ip 0 rest
        | _ => (ip, O, s2)
        end in
      match (ilen + flen)%nat, exponent s3 with
      | S _, Some (e, EmptyString) =>
          let x := nearest m (e - Z.of_nat flen) in
          if neg then PrimFloat.opp x else x
      | _, _ => PrimFloat.nan
      end
  end.

End Js.

(** ** Data the screen works on *)

(** [props.details]; [metadata] is read by [confirm] although the
    [Props] type does not declare it, so it may be [undefined]. *)
Record Details := mkDetails {
  minSendable : float;
  maxSendable : float;
  callback : string;
  domain : string;
  metadata : Js.ostring;
}.

(** [props.origin], or the object built in [getLightningData]. *)
Record Origin := mkOrigin {
  external : bool;
  name : string;
  description : Js.ostring;
  icon : string;
}.

(** [useState<string | number>]: the stored amount in millisatoshi. *)
Inductive Amount :=
| ANum (x : float)
| AStr (s : string).

Definition amount_number (a : Amount) : float :=
  match a with
  | ANum x => x
  | AStr s => Js.to_number s
  end.

(** The [successAction] object of the callback's answer, with the fields
    the LNURL-pay protocol gives it. *)
Record SuccessAction := mkSuccessAction {
  tag : Js.ostring;
  sa_description : Js.ostring;
  url : Js.ostring;
  sa_message : Js.ostring;
  ciphertext : Js.ostring;
  iv : Js.ostring;
}.

(** The body of the callback's answer. *)
Record PaymentInfo := mkPaymentInfo {
  pr : Js.ostring;
  successAction : option SuccessAction;
}.

(** Modelled from the spec: the type of the wallet call's result is not
    declared in the source.  The spec gives it as a preimage or an error;
    [confirm] reads the field [payment_error] only. *)
Record Payment := mkPayment {
  payment_error : Js.ostring;
  payment_preimage : Js.ostring;
}.

(** How [await axios.get] settles: rejected, or fulfilled with a body
    ([None] when the body is [null]). *)
Inductive FetchResult :=
| FetchThrows (e : Js.error)
| FetchData (body : option PaymentInfo).

(** How [lnurl.verifyInvoice] ends. *)
Inductive VerifyResult :=
| VerifyReturns (ok : bool)
| VerifyThrows (e : Js.error).

(** How [await utils.call] settles: rejected, or fulfilled with a value
    ([None] when the value is [undefined] or [null]). *)
Inductive PayResult :=
| PayThrows (e : Js.error)
| PayReturns (payment : option Payment).

(** ** External effects *)

Inductive Event :=
| SetLoading (b : bool)
| AxiosGet (callback : string) (amount : Amount)
| VerifyInvoice (info : PaymentInfo) (metadata : Js.ostring)
    (amount : Amount) (r : VerifyResult)
| UtilsCall (action : string) (origin : Origin) (paymentRequest : Js.ostring)
| Alert (text : string)
| WindowConfirm (text : string) (answer : bool)
| WindowOpen (url : Js.ostring)
| Notify (title : string) (message : Js.ostring)
| WindowClose
| ConsoleLog (e : Js.error)
| PreventDefault
| MsgError (text : string).

(** What the screen's surroundings answer when called synchronously: the
    two collaborators, and the engine when a property is read from [null]
    or [undefined].  The [TypeError] it then throws is worded differently
    by each engine, and for [null] and for [undefined]; [type_error] gives
    it for the property that was read. *)
Record Env := mkEnv {
  verifyInvoice : PaymentInfo -> Js.ostring -> Amount -> VerifyResult;
  window_confirm : string -> bool;
  type_error : string -> Js.error;
}.

(** ** The handlers *)

(** The values a handler closes over: those of the render it belongs to.
    The screen renders its buttons only when [details] and [origin] are
    both set, so a handler always has them. *)
Record Closure := mkClosure {
  c_details : Details;
  c_origin : Origin;
  c_valueMSat : Amount;
}.

(** [successAction.tag === t], the comparison a [case] label makes. *)
Definition tag_is (sa : SuccessAction) (t : string) : bool :=
  match tag sa with
  | Some s => String.eqb s t
  | None => false
  end.

Definition url_question (sa : SuccessAction) : string :=
  (Js.to_string (sa_description sa) ++ " Do you want to open: "
     ++ Js.to_string (url sa) ++ "?")%string.

Definition not_implemented (sa : SuccessAction) : string :=
  ("Not implemented yet. Please submit an issue to support success action: "
     ++ Js.to_string (tag sa))%string.

(** The [switch] over [successAction.tag] in [confirm]. *)
Definition successActionSwitch (env : Env) (sa : SuccessAction) : list Event :=
  if tag_is sa "url" then
    Alert (Js.to_string (sa_description sa))
      :: WindowConfirm (url_question sa) (window_confirm env (url_question sa))
      :: (if window_confirm env (url_question sa)
          then [WindowOpen (url sa)] else [])
  else if tag_is sa "message" then
    [Notify "LNURL response:" (sa_message sa)]
  else
    [Alert (not_implemented sa)].

(** The [catch] and [finally] blocks of [confirm]. *)
Definition catch_block (e : Js.error) : list Event :=
  [ConsoleLog e; Alert ("Error: " ++ Js.to_string (Js.message e))%string].

Definition finally_block : list Event := [SetLoading false].

(** [confirm] up to its first [await]: the invoice request is issued. *)
Definition confirm_begin (c : Closure) : list Event :=
  [SetLoading true; AxiosGet (callback (c_details c)) (c_valueMSat c)].

(** [confirm] from the settled invoice request up to its second [await],
    or to its end: the events, and the answer's body when the wallet call
    was issued and is now awaited. *)
Definition confirm_fetched (env : Env) (c : Closure) (r : FetchResult)
  : list Event * option PaymentInfo :=
  match r with
  | FetchThrows e => (catch_block e ++ finally_block, None)
  | FetchData None => (catch_block (type_error env "pr") ++ finally_block, None)
  | FetchData (Some info) =>
      let v := verifyInvoice env info (metadata (c_details c)) (c_valueMSat c) in
      let call := VerifyInvoice info (metadata (c_details c)) (c_valueMSat c) v in
      match v with
      | VerifyThrows e => (call :: catch_block e ++ finally_block, None)
      | VerifyReturns false =>
          (call :: Alert "Payment aborted. Invalid invoice" :: finally_block, None)
      | VerifyReturns true =>
          ([call; UtilsCall "lnurlPay" (c_origin c) (pr info)], Some info)
      end
  end.

(** [confirm] from the settled wallet call to its end. *)
Definition confirm_paid (env : Env) (info : PaymentInfo) (r : PayResult)
  : list Event :=
  match r with
  | PayThrows e => catch_block e ++ finally_block
  | PayReturns payment =>
      match successAction info with
      | None => WindowClose :: finally_block
      | Some sa =>
          match payment with
          | None => catch_block (type_error env "payment_error") ++ finally_block
          | Some p =>
              (if Js.truthy (payment_error p) then []
               else successActionSwitch env sa)
                ++ WindowClose :: finally_block
          end
      end
  end.

(** One whole run of [confirm], given how its two awaited calls settle. *)
Definition confirm (env : Env) (c : Closure) (fetched : FetchResult)
    (paid : PayResult) : list Event :=
  let '(evs, awaiting) := confirm_fetched env c fetched in
  confirm_begin c ++ evs
    ++ match awaiting with
       | Some info => confirm_paid env info paid
       | None => []
       end.

(** [reject]. *)
Definition reject : list Event := [PreventDefault; MsgError "User rejected"].

(** ** The screen as a transition system *)

(** An invocation of [confirm] that has not finished is suspended at one
    of its two [await]s. *)
Inductive Task :=
| AwaitFetch (c : Closure)
| AwaitPay (c : Closure) (info : PaymentInfo)
| Finished.

Record Screen := mkScreen {
  details : option Details;
  origin : option Origin;
  valueMSat : Amount;
  loading : bool;
  lookup_pending : bool;  (* [getLightningData] was started and has not answered *)
  tasks : list Task;
  trace : list Event;
}.

(** The initial render: the [useState] initialisers and the effect. *)
Definition initial_valueMSat (d : option Details) : Amount :=
  match d with
  | Some d => if Js.truthy_num (minSendable d) then ANum (minSendable d)
              else ANum PrimFloat.zero
  | None => ANum PrimFloat.zero
  end.

Definition mount (d : option Details) (o : option Origin) : Screen :=
  {| details := d;
     origin := o;
     valueMSat := initial_valueMSat d;
     loading := false;
     lookup_pending :=
       match d, o with
       | None, None => true
       | _, _ => false
       end;
     tasks := [];
     trace := [] |}.

(** What the screen shows. *)
Inductive AmountView :=
| FixedAmount (satoshi : float)
| AmountInputs (number_min number_max number_value : float)
    (range_min range_max : float) (range_value : Amount).

Inductive View :=
| LoadingView
| PayView (title image domain : string) (amount : AmountView)
    (button_loading : bool).

Definition renderAmount (d : Details) (v : Amount) : AmountView :=
  if PrimFloat.eqb (minSendable d) (maxSendable d)
  then FixedAmount (minSendable d / 1000)
  else AmountInputs (minSendable d / 1000) (maxSendable d / 1000)
         (amount_number v / 1000) (minSendable d) (maxSendable d) v.

Definition render (s : Screen) : View :=
  match details s, origin s with
  | Some d, Some o =>
      PayView (name o) (icon o) (domain d) (renderAmount d (valueMSat s))
        (loading s)
  | _, _ => LoadingView
  end.

(** The handlers' closure, when the buttons are on screen. *)
Definition closure (s : Screen) : option Closure :=
  match details s, origin s with
  | Some d, Some o => Some (mkClosure d o (valueMSat s))
  | _, _ => None
  end.

(** The amount inputs are on screen. *)
Definition editable (s : Screen) : bool :=
  match closure s with
  | Some c => negb (PrimFloat.eqb (minSendable (c_details c))
                                  (maxSendable (c_details c)))
  | None => false
  end.

(** The page's answer to [getLightningData]: [data[0]], when it is set,
    and the details [lnurl.getDetails] resolved for its recipient. *)
Record LightningData := mkLightningData {
  ln_name : string;
  ln_description : Js.ostring;
  ln_icon : string;
  ln_details : Details;
}.

Inductive Action :=
| InvokeConfirm
| FetchSettles (i : nat) (r : FetchResult)
| PaySettles (i : nat) (r : PayResult)
| InvokeReject
| ChangeSatoshi (value : string)   (* [onChange] of the number input *)
| ChangeRange (value : string)     (* [onChange] of the range input *)
| LookupSettles (data : option LightningData).

(** [setLoading] calls among the events decide the flag. *)
Definition apply_loading (evs : list Event) (l : bool) : bool :=
  fold_left (fun l e => match e with SetLoading b => b | _ => l end) evs l.

Definition emit (s : Screen) (evs : list Event) (ts : list Task) : Screen :=
  {| details := details s;
     origin := origin s;
     valueMSat := valueMSat s;
     loading := apply_loading evs (loading s);
     lookup_pending := lookup_pending s;
     tasks := ts;
     trace := trace s ++ evs |}.

Definition set_valueMSat (s : Screen) (v : Amount) : Screen :=
  {| details := details s;
     origin := origin s;
     valueMSat := v;
     loading := loading s;
     lookup_pending := lookup_pending s;
     tasks := tasks s;
     trace := trace s |}.

(** One step; [None] when the action cannot happen in this state. *)
Definition step (env : Env) (s : Screen) (a : Action) : option Screen :=
  match a with
  | InvokeConfirm =>
      match closure s with
      | Some c => Some (emit s (confirm_begin c) (tasks s ++ [AwaitFetch c]))
      | None => None
      end
  | FetchSettles i r =>
      match tasks s !! i with
      | Some (AwaitFetch c) =>
          let '(evs, awaiting) := confirm_fetched env c r in
          let t := match awaiting with
                   | Some info => AwaitPay c info
                   | None => Finished
                   end in
          Some (emit s evs (<[i := t]> (tasks s)))
      | _ => None
      end
  | PaySettles i r =>
      match tasks s !! i with
      | Some (AwaitPay c info) =>
          Some (emit s (confirm_paid env info r) (<[i := Finished]> (tasks s)))
      | _ => None
      end
  | InvokeReject =>
      match closure s with
      | Some _ => Some (emit s reject (tasks s))
      | None => None
      end
  | ChangeSatoshi v =>
      if editable s
      then Some (set_valueMSat s (ANum (Js.to_number v * 1000)))
      else None
  | ChangeRange v =>
      if editable s then Some (set_valueMSat s (AStr v)) else None
  | LookupSettles data =>
      if lookup_pending s then
        match data with
        | Some ld =>
            Some {| details := Some (ln_details ld);
                    origin := Some (mkOrigin true (ln_name ld)
                                      (ln_description ld) (ln_icon ld));
                    valueMSat := valueMSat s;
                    loading := loading s;
                    lookup_pending := false;
                    tasks := tasks s;
                    trace := trace s |}
        | None =>
            Some {| details := details s;
                    origin := origin s;
                    valueMSat := valueMSat s;
                    loading := loading s;
                    lookup_pending := false;
                    tasks := tasks s;
                    trace := trace s |}
        end
      else None
  end.

(** A run: the actions in order; [None] as soon as one cannot happen. *)
Fixpoint run (env : Env) (s : Screen) (acts : list Action) : option Screen :=
  match acts with
  | [] => Some s
  | a :: rest =>
      match step env s a with
      | Some s' => run env s' rest
      | None => None
      end
  end.

(** ** Reading traces *)

Definition is_fetch (e : Event) : bool :=
  match e with AxiosGet _ _ => true | _ => false end.

Definition is_pay (e : Event) : bool :=
  match e with UtilsCall _ _ _ => true | _ => false end.

Definition is_close (e : Event) : bool :=
  match e with WindowClose => true | _ => false end.

Definition is_alert (e : Event) : bool :=
  match e with Alert _ => true | _ => false end.

(** What the user gets to see or hear: a dialog or a notification. *)
Definition is_user_visible (e : Event) : bool :=
  match e with
  | Alert _ | WindowConfirm _ _ | Notify _ _ => true
  | _ => false
  end.

(** Events only the success-action switch produces.  Each of its branches
    produces at least one; of the alerts, only its own, which differ from
    those of the failure paths in their first letter. *)
Definition success_action_event (e : Event) : bool :=
  match e with
  | WindowConfirm _ _ | WindowOpen _ | Notify _ _ => true
  | Alert text => String.prefix "Not implemented yet." text
  | _ => false
  end.

Definition is_open (e : Event) : bool :=
  match e with WindowOpen _ => true | _ => false end.

Definition is_confirm_invocation (a : Action) : bool :=
  match a with InvokeConfirm => true | _ => false end.

Definition is_edit (a : Action) : bool :=
  match a with ChangeSatoshi _ | ChangeRange _ => true | _ => false end.

Definition awaits_fetch (t : Task) : bool :=
  match t with AwaitFetch _ => true | _ => false end.

(** The two amount inputs' values, when they are on screen: the number
    input's (satoshi) and the range input's (millisatoshi). *)
Definition shown_amounts (s : Screen) : option (float * Amount) :=
  match render s with
  | PayView _ _ _ (AmountInputs _ _ number_value _ _ range_value) _ =>
      Some (number_value, range_value)
  | _ => None
  end.

Definition is_set_loading (e : Event) : bool :=
  match e with SetLoading _ => true | _ => false end.

Definition count (f : Event -> bool) (t : list Event) : nat :=
  length (List.filter f t).

Arguments count : simpl never.

(** Wallet calls and pending invoice requests together never outnumber
    the invocations so far. *)
Definition balanced (s : Screen) : Prop :=
  count is_fetch (trace s) = length (tasks s)
  /\ count is_pay (trace s) + length (List.filter awaits_fetch (tasks s))
     <= length (tasks s).

(** Every wallet call in the trace comes right after a verification
    that returned true, and pays the invoice that was verified. *)
Definition pay_follows_verification (t : list Event) : Prop :=
  forall i action o request,
    t !! i = Some (UtilsCall action o request) ->
    exists j info md amount,
      i = S j
      /\ t !! j = Some (VerifyInvoice info md amount (VerifyReturns true))
      /\ request = pr info
      /\ action = "lnurlPay".

(** Every invoice request in the trace asks for the amount [v]. *)
Definition requests_only (v : Amount) (t : list Event) : Prop :=
  Forall (fun e => match e with AxiosGet _ amount => amount = v | _ => True end) t.

(** ** Sample data *)

Module Sample.

Definition details : Details :=
  mkDetails 1000 100000 "https://pay.example/cb" "pay.example" (Some "[]").

Definition origin : Origin :=
  mkOrigin false "Example shop" None "https://pay.example/icon.png".

(** Bounds that are not whole satoshi: the range input then steps
    through 1, 1001, 2001, ... millisatoshi. *)
Definition fine_details : Details :=
  mkDetails 1 100000 "https://pay.example/cb" "pay.example" (Some "[]").

(** Coinciding bounds: the amount is fixed at one satoshi. *)
Definition fixed_details : Details :=
  mkDetails 1000 1000 "https://pay.example/cb" "pay.example" (Some "[]").

Definition closure (v : Amount) : Closure := mkClosure details origin v.

(** One engine's wording of the [TypeError]. *)
Definition v8_type_error (property : string) : Js.error :=
  Js.Error (Some ("Cannot read properties of undefined (reading '"
                    ++ property ++ "')")%string).

Definition accepting : Env :=
  mkEnv (fun _ _ _ => VerifyReturns true) (fun _ => true) v8_type_error.
Definition refusing : Env :=
  mkEnv (fun _ _ _ => VerifyReturns false) (fun _ => true) v8_type_error.
Definition declining : Env :=
  mkEnv (fun _ _ _ => VerifyReturns true) (fun _ => false) v8_type_error.

Definition action (t : string) : SuccessAction :=
  mkSuccessAction (Some t) (Some "Thank you") (Some "https://pay.example/done")
    (Some "Paid") (Some "c2VjcmV0") (Some "aXY=").

Definition invoice (sa : option SuccessAction) : PaymentInfo :=
  mkPaymentInfo (Some "lnbc50n1example") sa.

Definition paid : PayResult :=
  PayReturns (Some (mkPayment (Some EmptyString) (Some "00ff"))).

Definition failed : PayResult :=
  PayReturns (Some (mkPayment (Some "no_route") None)).

(** An answer with neither an error nor a preimage. *)
Definition bare : PayResult := PayReturns (Some (mkPayment None None)).

End Sample.

(** ** Lemmas on traces *)

Lemma count_app f t1 t2 : count f (t1 ++ t2) = count f t1 + count f t2.
Proof. unfold count. rewrite List.filter_app, length_app. reflexivity. Qed.

Lemma count_cons f e t :
  count f (e :: t) = (if f e then 1 else 0) + count f t.
Proof. unfold count. simpl. destruct (f e); reflexivity. Qed.

Lemma count_nil f : count f [] = 0.
Proof. reflexivity. Qed.

Lemma count_zero_not_in f t e : count f t = 0 -> f e = true -> ~ In e t.
Proof.
  unfold count. intros Hc He Hin.
  assert (Hf : In e (List.filter f t)) by (apply List.filter_In; auto).
  destruct (List.filter f t); [inversion Hf | discriminate].
Qed.

Lemma not_implemented_is_success_action_event sa :
  success_action_event (Alert (not_implemented sa)) = true.
Proof. reflexivity. Qed.

Lemma catch_block_no_success_action e :
  count success_action_event (catch_block e) = 0.
Proof. reflexivity. Qed.

Lemma switch_has_success_action_event env sa :
  count success_action_event (successActionSwitch env sa) <> 0.
Proof.
  unfold successActionSwitch.
  destruct (tag_is sa "url"); [| destruct (tag_is sa "message")];
    rewrite !count_cons; simpl.
  - destruct (String.prefix _ _); simpl; lia.
  - lia.
  - lia.
Qed.

(** Splits a goal along the ways one run of [confirm] can go. *)
Ltac confirm_cases env c fetched paid :=
  unfold confirm, confirm_fetched;
  destruct fetched as [? | [info |]]; simpl;
  [ | destruct (verifyInvoice env info (metadata (c_details c)) (c_valueMSat c))
        as [[|] | ?] eqn:Hverify; simpl;
      [ unfold confirm_paid;
        destruct paid as [? | [p |]];
        destruct (successAction info) as [sa |] eqn:Haction; simpl;
        [ | | destruct (Js.truthy (payment_error p)) eqn:Herror; simpl | | | ]
      | | ]
    | ].

(** ** Verification gates payment *)

(** The whole trace of a run whose verification does not return true. *)
Lemma failed_verification_trace
    (env : Env) (c : Closure) (info : PaymentInfo) (paid : PayResult) :
  verifyInvoice env info (metadata (c_details c)) (c_valueMSat c)
    <> VerifyReturns true ->
  let t := confirm env c (FetchData (Some info)) paid in
  let v := verifyInvoice env info (metadata (c_details c)) (c_valueMSat c) in
  count is_pay t = 0
  /\ count success_action_event t = 0
  /\ count is_close t = 0
  /\ (exists report,
        t = confirm_begin c
              ++ VerifyInvoice info (metadata (c_details c)) (c_valueMSat c) v
              :: report ++ [SetLoading false]
        /\ (report = [Alert "Payment aborted. Invalid invoice"]
            \/ exists e, v = VerifyThrows e /\ report = catch_block e))
  /\ count is_alert t = 1.
Proof.
  intros Hfail t v. subst t v. unfold confirm, confirm_fetched.
  destruct (verifyInvoice env info (metadata (c_details c)) (c_valueMSat c))
    as [[|] | e]; [congruence | |]; simpl.
  - repeat split; try reflexivity.
    exists [Alert "Payment aborted. Invalid invoice"]. split; [reflexivity | now left].
  - repeat split; try reflexivity.
    exists (catch_block e). split; [reflexivity | right; now exists e].
Qed.

(** C1. When [lnurl.verifyInvoice] does not return true (it returns a
    falsy value or throws), the run of [confirm] stops there: after the
    invoice request and the verification it only reports the failure in
    an alert and resets the loading flag.  The wallet is never called, no
    success action is attempted, the window stays open and exactly one
    alert is shown. *)
Theorem confirm_aborts_on_failed_verification
    (env : Env) (c : Closure) (info : PaymentInfo) (paid : PayResult)
    (Hfail : verifyInvoice env info (metadata (c_details c)) (c_valueMSat c)
               <> VerifyReturns true) :
  let t := confirm env c (FetchData (Some info)) paid in
  let v := verifyInvoice env info (metadata (c_details c)) (c_valueMSat c) in
  count is_pay t = 0
  /\ count success_action_event t = 0
  /\ count is_close t = 0
  /\ (exists report,
        t = confirm_begin c
              ++ VerifyInvoice info (metadata (c_details c)) (c_valueMSat c) v
              :: report ++ [SetLoading false]
        /\ (report = [Alert "Payment aborted. Invalid invoice"]
            \/ exists e, v = VerifyThrows e /\ report = catch_block e))
  /\ count is_alert t = 1.
Proof. exact (failed_verification_trace env c info paid Hfail). Qed.

Lemma confirm_aborts_on_failed_verification_witness :
  let c := Sample.closure (ANum 5000) in
  let info := Sample.invoice (Some (Sample.action "message")) in
  let t := confirm Sample.refusing c (FetchData (Some info)) Sample.paid in
  count is_pay t = 0 /\ count success_action_event t = 0 /\ count is_alert t = 1.
Proof.
  intros c info t.
  destruct (confirm_aborts_on_failed_verification Sample.refusing c info Sample.paid)
    as (Hpay & Haction & _ & _ & Halert).
  - simpl. discriminate.
  - auto.
Defined.

(** ** Errors and what the user sees of them *)

(** C3. A wallet result that carries [payment_error] is not shown to the
    user: with a valid invoice and the wallet answering
    [{payment_error: "no_route"}], the run of [confirm] shows no alert,
    no dialog and no notification, and closes the window. *)
Theorem returned_payment_error_is_not_shown :
  let t := confirm Sample.accepting (Sample.closure (ANum 5000))
             (FetchData (Some (Sample.invoice None))) Sample.failed in
  t = [SetLoading true;
       AxiosGet "https://pay.example/cb" (ANum 5000);
       VerifyInvoice (Sample.invoice None) (Some "[]") (ANum 5000)
         (VerifyReturns true);
       UtilsCall "lnurlPay" Sample.origin (Some "lnbc50n1example");
       WindowClose;
       SetLoading false]
  /\ count is_user_visible t = 0.
Proof. split; reflexivity. Qed.


(** ** Closing the window *)

Lemma switch_never_closes env sa :
  count is_close (successActionSwitch env sa) = 0.
Proof.
  unfold successActionSwitch.
  destruct (tag_is sa "url"); [destruct (window_confirm env _) |
    destruct (tag_is sa "message")]; reflexivity.
Qed.

Lemma switch_never_pays env sa :
  count is_pay (successActionSwitch env sa) = 0.
Proof.
  unfold successActionSwitch.
  destruct (tag_is sa "url"); [destruct (window_confirm env _) |
    destruct (tag_is sa "message")]; reflexivity.
Qed.

Lemma switch_never_fetches env sa :
  count is_fetch (successActionSwitch env sa) = 0.
Proof.
  unfold successActionSwitch.
  destruct (tag_is sa "url"); [destruct (window_confirm env _) |
    destruct (tag_is sa "message")]; reflexivity.
Qed.

(** Counts over a trace, with the switch's share filled in. *)
Ltac count_trace :=
  unfold finally_block, catch_block;
  repeat (rewrite ?count_cons, ?count_app, ?count_nil,
            ?switch_never_closes, ?switch_never_pays, ?switch_never_fetches;
          simpl).

(** How often a run of [confirm] closes the window, by the way it went. *)
Lemma close_count env c fetched paid :
  let t := confirm env c fetched paid in
  count is_close t <= 1
  /\ (forall e, fetched = FetchThrows e -> count is_close t = 0)
  /\ (forall info, fetched = FetchData (Some info) ->
        verifyInvoice env info (metadata (c_details c)) (c_valueMSat c)
          <> VerifyReturns true ->
        count is_close t = 0)
  /\ (forall e, paid = PayThrows e -> count is_close t = 0)
  /\ (forall p, count is_pay t = 1 -> paid = PayReturns (Some p) ->
        Js.truthy (payment_error p) = false -> count is_close t = 1).
Proof.
  intros t. subst t. split; [| split; [| split; [| split]]].
  - confirm_cases env c fetched paid; count_trace; lia.
  - intros e ->. reflexivity.
  - intros info -> Hfail. apply (failed_verification_trace env c info paid Hfail).
  - intros e ->. unfold confirm, confirm_fetched.
    destruct fetched as [? | [info |]]; try reflexivity.
    destruct (verifyInvoice env info _ _) as [[|] | ?]; reflexivity.
  - intros p Hpay -> Herr. revert Hpay. unfold confirm, confirm_fetched.
    destruct fetched as [? | [info |]]; try discriminate.
    destruct (verifyInvoice env info _ _) as [[|] | ?]; try discriminate.
    intros _. unfold confirm_paid. rewrite Herr.
    destruct (successAction info); count_trace; reflexivity.
Qed.

(** C4 (as the code has it).  A run of [confirm] closes the window at
    most once.  It closes it once when the wallet call was made and
    answered with a result without [payment_error], whatever the success
    action did; it does not close it when the invoice request fails, when
    the verification does not return true or when the wallet call throws.
    [reject] does not close it either. *)
Theorem window_closes_only_after_wallet_answer env c fetched paid :
  let t := confirm env c fetched paid in
  (count is_close t <= 1
   /\ (forall e, fetched = FetchThrows e -> count is_close t = 0)
   /\ (forall info, fetched = FetchData (Some info) ->
         verifyInvoice env info (metadata (c_details c)) (c_valueMSat c)
           <> VerifyReturns true ->
         count is_close t = 0)
   /\ (forall e, paid = PayThrows e -> count is_close t = 0)
   /\ (forall p, count is_pay t = 1 -> paid = PayReturns (Some p) ->
         Js.truthy (payment_error p) = false -> count is_close t = 1))
  /\ count is_close reject = 0.
Proof. split; [exact (close_count env c fetched paid) | reflexivity]. Qed.

(** C4 fails as stated: a run that ends on a refused invoice is terminal
    (one alert, the loading flag reset) and does not close the window. *)
Lemma refused_invoice_leaves_window_open :
  let t := confirm Sample.refusing (Sample.closure (ANum 5000))
             (FetchData (Some (Sample.invoice None))) Sample.paid in
  t = [SetLoading true;
       AxiosGet "https://pay.example/cb" (ANum 5000);
       VerifyInvoice (Sample.invoice None) (Some "[]") (ANum 5000)
         (VerifyReturns false);
       Alert "Payment aborted. Invalid invoice";
       SetLoading false]
  /\ count is_close t = 0.
Proof. split; reflexivity. Qed.

(** ** The success action *)

Lemma tag_is_false sa t : tag sa <> Some t -> tag_is sa t = false.
Proof.
  unfold tag_is. destruct (tag sa) as [s |]; [| reflexivity].
  intros Hne. apply String.eqb_neq. congruence.
Qed.

Lemma tag_is_true sa t : tag sa = Some t -> tag_is sa t = true.
Proof. unfold tag_is. intros ->. apply String.eqb_refl. Qed.

(** C6. For the tag "aes" and for every tag other than "url" and
    "message" (a missing tag included), the switch does one thing: it
    shows an alert that says the success action is not implemented and
    names the tag.  It opens nothing, notifies nothing and does not
    throw; the ciphertext and the iv are not used. *)
Theorem unsupported_tag_is_reported (env : Env) (sa : SuccessAction)
    (Hurl : tag sa <> Some "url") (Hmessage : tag sa <> Some "message") :
  successActionSwitch env sa =
    [Alert ("Not implemented yet. Please submit an issue to support success action: "
              ++ Js.to_string (tag sa))%string].
Proof.
  unfold successActionSwitch.
  rewrite (tag_is_false sa "url" Hurl), (tag_is_false sa "message" Hmessage).
  reflexivity.
Qed.

Lemma unsupported_tag_is_reported_witness :
  successActionSwitch Sample.accepting (Sample.action "aes") =
    [Alert "Not implemented yet. Please submit an issue to support success action: aes"].
Proof.
  apply (unsupported_tag_is_reported Sample.accepting (Sample.action "aes"));
    simpl; discriminate.
Defined.

(** C9. For the tag "url" the switch shows the description, then asks,
    in a dialog whose text holds the description and the url, whether to
    open the url, and opens the url exactly when the user affirms. *)
Theorem url_opens_only_when_affirmed (env : Env) (sa : SuccessAction)
    (Hurl : tag sa = Some "url") :
  let question :=
    (Js.to_string (sa_description sa) ++ " Do you want to open: "
       ++ Js.to_string (url sa) ++ "?")%string in
  let answer := window_confirm env question in
  successActionSwitch env sa =
    Alert (Js.to_string (sa_description sa))
      :: WindowConfirm question answer
      :: (if answer then [WindowOpen (url sa)] else [])
  /\ count is_open (successActionSwitch env sa) = (if answer then 1 else 0).
Proof.
  intros question answer. unfold successActionSwitch.
  rewrite (tag_is_true sa "url" Hurl).
  fold question. fold answer. unfold url_question. fold question. fold answer.
  split; [reflexivity |]. destruct answer; reflexivity.
Qed.

Lemma url_opens_only_when_affirmed_witness :
  successActionSwitch Sample.declining (Sample.action "url") =
    [Alert "Thank you";
     WindowConfirm "Thank you Do you want to open: https://pay.example/done?" false]
  /\ count is_open (successActionSwitch Sample.declining (Sample.action "url")) = 0.
Proof.
  apply (url_opens_only_when_affirmed Sample.declining (Sample.action "url")).
  reflexivity.
Defined.

(** A run shows a success-action event only in one way: the invoice was
    fetched and accepted, the wallet was called and answered with a result
    without [payment_error], and the events are those of the switch,
    after the wallet call and before the window is closed. *)
Lemma success_action_needs_payment env c fetched paid :
  let t := confirm env c fetched paid in
  (count success_action_event t <> 0 ->
     exists info sa p,
       fetched = FetchData (Some info)
       /\ successAction info = Some sa
       /\ paid = PayReturns (Some p)
       /\ Js.truthy (payment_error p) = false
       /\ t = confirm_begin c
               ++ [VerifyInvoice info (metadata (c_details c)) (c_valueMSat c)
                     (VerifyReturns true);
                   UtilsCall "lnurlPay" (c_origin c) (pr info)]
               ++ successActionSwitch env sa
               ++ [WindowClose; SetLoading false])
  /\ (forall p, paid = PayReturns (Some p) ->
        Js.truthy (payment_error p) = true ->
        count success_action_event t = 0).
Proof.
  intros t. subst t. split.
  - confirm_cases env c fetched paid; intros Hcount;
      try (exfalso; apply Hcount; reflexivity).
    exists info, sa, p. repeat split; try assumption.
  - intros p -> Herr. unfold confirm, confirm_fetched.
    destruct fetched as [? | [info |]]; try reflexivity.
    destruct (verifyInvoice env info _ _) as [[|] | ?]; try reflexivity.
    unfold confirm_paid. rewrite Herr.
    destruct (successAction info); reflexivity.
Qed.

(** C8 (as the code has it).  The success-action switch runs only after
    the wallet call has answered with a result without [payment_error]:
    if a run shows any success-action event, the wallet result has no
    [payment_error], and the events come after the wallet call.  When the
    result carries [payment_error], or the wallet call throws, the run
    shows no success-action event at all.  The preimage is not looked at:
    two results that differ in it only give the same run. *)
Theorem success_action_only_without_payment_error
    (env : Env) (c : Closure) (fetched : FetchResult) (paid : PayResult) :
  let t := confirm env c fetched paid in
  (count success_action_event t <> 0 ->
     exists info sa p,
       fetched = FetchData (Some info)
       /\ successAction info = Some sa
       /\ paid = PayReturns (Some p)
       /\ Js.truthy (payment_error p) = false
       /\ t = confirm_begin c
               ++ [VerifyInvoice info (metadata (c_details c)) (c_valueMSat c)
                     (VerifyReturns true);
                   UtilsCall "lnurlPay" (c_origin c) (pr info)]
               ++ successActionSwitch env sa
               ++ [WindowClose; SetLoading false])
  /\ (forall p, paid = PayReturns (Some p) ->
        Js.truthy (payment_error p) = true ->
        count success_action_event t = 0)
  /\ (forall e, paid = PayThrows e -> count success_action_event t = 0)
  /\ (forall err preimage preimage',
        confirm env c fetched (PayReturns (Some (mkPayment err preimage)))
        = confirm env c fetched (PayReturns (Some (mkPayment err preimage')))).
Proof.
  intros t.
  destruct (success_action_needs_payment env c fetched paid) as [Honly Hskip].
  split; [exact Honly |]. split; [exact Hskip |]. split.
  - intros e ->. subst t. unfold confirm, confirm_fetched.
    destruct fetched as [? | [info |]]; try reflexivity.
    destruct (verifyInvoice env info _ _) as [[|] | ?]; reflexivity.
  - intros err preimage preimage'. reflexivity.
Qed.

(** C8 fails as stated: a wallet answer with neither [payment_error] nor
    a preimage lets the switch run; here it sends the notification. *)
Lemma success_action_runs_without_preimage :
  let t := confirm Sample.accepting (Sample.closure (ANum 5000))
             (FetchData (Some (Sample.invoice (Some (Sample.action "message")))))
             Sample.bare in
  Sample.bare = PayReturns (Some (mkPayment None None))
  /\ Js.truthy (payment_preimage (mkPayment None None)) = false
  /\ t = [SetLoading true;
          AxiosGet "https://pay.example/cb" (ANum 5000);
          VerifyInvoice (Sample.invoice (Some (Sample.action "message")))
            (Some "[]") (ANum 5000) (VerifyReturns true);
          UtilsCall "lnurlPay" Sample.origin (Some "lnbc50n1example");
          Notify "LNURL response:" (Some "Paid");
          WindowClose;
          SetLoading false]
  /\ count success_action_event t = 1.
Proof. repeat split. Qed.

(** ** Runs of the screen *)

Lemma confirm_fetched_counts env c r :
  count is_fetch (fst (confirm_fetched env c r)) = 0
  /\ count is_pay (fst (confirm_fetched env c r))
       = match snd (confirm_fetched env c r) with Some _ => 1 | None => 0 end.
Proof.
  unfold confirm_fetched. destruct r as [? | [info |]]; try (split; reflexivity).
  destruct (verifyInvoice env info _ _) as [[|] | ?]; split; reflexivity.
Qed.

Lemma confirm_paid_counts env info r :
  count is_fetch (confirm_paid env info r) = 0
  /\ count is_pay (confirm_paid env info r) = 0.
Proof.
  unfold confirm_paid. destruct r as [? | [p |]]; try (split; reflexivity);
    destruct (successAction info); try (split; reflexivity).
  destruct (Js.truthy (payment_error p)); split; count_trace; reflexivity.
Qed.

(** Each step adds one invoice request when it is an invocation of
    [confirm], whatever the loading flag says, and none otherwise. *)
Lemma step_fetch_count env s a s' :
  step env s a = Some s' ->
  count is_fetch (trace s')
  = count is_fetch (trace s) + (if is_confirm_invocation a then 1 else 0).
Proof.
  destruct a as [| i r | i r | | v | v | data]; simpl.
  - destruct (closure s); [| discriminate]. intros [= <-]. simpl.
    rewrite count_app. reflexivity.
  - destruct (tasks s !! i) as [[c | |] |]; try discriminate.
    pose proof (confirm_fetched_counts env c r) as [Hf _].
    destruct (confirm_fetched env c r) as [evs awaiting]. intros [= <-]. simpl in *.
    rewrite count_app, Hf. reflexivity.
  - destruct (tasks s !! i) as [[| c info |] |]; try discriminate.
    intros [= <-]. simpl.
    rewrite count_app, (proj1 (confirm_paid_counts env info r)). reflexivity.
  - destruct (closure s); [| discriminate]. intros [= <-]. simpl.
    rewrite count_app. reflexivity.
  - destruct (editable s); [| discriminate]. intros [= <-]. simpl. lia.
  - destruct (editable s); [| discriminate]. intros [= <-]. simpl. lia.
  - destruct (lookup_pending s); [| discriminate].
    destruct data; intros [= <-]; simpl; lia.
Qed.

Lemma count_insert_awaits (ts : list Task) i c t :
  ts !! i = Some (AwaitFetch c) ->
  length (List.filter awaits_fetch (<[i := t]> ts))
    + 1
  = length (List.filter awaits_fetch ts) + (if awaits_fetch t then 1 else 0).
Proof.
  revert i. induction ts as [| x ts IH]; intros [| i] Hi; try discriminate.
  - injection Hi as ->. simpl. destruct (awaits_fetch t); simpl; lia.
  - simpl in *. specialize (IH i Hi).
    destruct (awaits_fetch x); simpl; lia.
Qed.

Lemma count_insert_not_awaiting (ts : list Task) i x t :
  ts !! i = Some x -> awaits_fetch x = false -> awaits_fetch t = false ->
  length (List.filter awaits_fetch (<[i := t]> ts))
  = length (List.filter awaits_fetch ts).
Proof.
  intros Hi Hx Ht. revert i Hi.
  induction ts as [| y ts IH]; intros [| i] Hi; try discriminate.
  - injection Hi as ->. simpl. rewrite Hx, Ht. reflexivity.
  - simpl in *. specialize (IH i Hi). destruct (awaits_fetch y); simpl; lia.
Qed.

Lemma mount_balanced d o : balanced (mount d o).
Proof. split; simpl; [reflexivity | lia]. Qed.

Lemma step_balanced env s a s' :
  step env s a = Some s' -> balanced s -> balanced s'.
Proof.
  intros Hstep [Hf Hp]. unfold balanced.
  pose proof (step_fetch_count env s a s' Hstep) as Hcount.
  destruct a as [| i r | i r | | v | v | data]; simpl in *.
  - destruct (closure s); [| discriminate]. injection Hstep as <-. simpl in *.
    split.
    + rewrite Hcount, length_app. simpl. lia.
    + rewrite count_app, List.filter_app, !length_app.
      change (count is_pay (confirm_begin c)) with 0. simpl. lia.
  - destruct (tasks s !! i) as [[c | |] |] eqn:Hi; try discriminate.
    pose proof (confirm_fetched_counts env c r) as [_ Hpay].
    destruct (confirm_fetched env c r) as [evs awaiting].
    injection Hstep as <-. simpl in *. split.
    + rewrite Hcount, length_insert. lia.
    + rewrite count_app, Hpay, length_insert.
      pose proof (count_insert_awaits (tasks s) i c
                    (match awaiting with
                     | Some info => AwaitPay c info
                     | None => Finished
                     end) Hi) as Hins.
      destruct awaiting; simpl in *; lia.
  - destruct (tasks s !! i) as [[| c info |] |] eqn:Hi; try discriminate.
    injection Hstep as <-. simpl in *. split.
    + rewrite Hcount, length_insert. lia.
    + rewrite count_app, (proj2 (confirm_paid_counts env info r)), length_insert.
      rewrite (count_insert_not_awaiting (tasks s) i (AwaitPay c info) Finished Hi
                 eq_refl eq_refl). lia.
  - destruct (closure s); [| discriminate]. injection Hstep as <-. simpl in *.
    split; [lia |]. rewrite count_app. change (count is_pay reject) with 0. lia.
  - destruct (editable s); [| discriminate]. injection Hstep as <-. simpl. split; lia.
  - destruct (editable s); [| discriminate]. injection Hstep as <-. simpl. split; lia.
  - destruct (lookup_pending s); [| discriminate].
    destruct data; injection Hstep as <-; simpl; split; lia.
Qed.

Lemma run_fetch_count env acts : forall s s',
  run env s acts = Some s' ->
  count is_fetch (trace s')
  = count is_fetch (trace s) + length (List.filter is_confirm_invocation acts).
Proof.
  induction acts as [| a acts IH]; intros s s' Hrun; simpl in *.
  - injection Hrun as <-. lia.
  - destruct (step env s a) as [s1 |] eqn:Hstep; [| discriminate].
    rewrite (IH _ _ Hrun), (step_fetch_count _ _ _ _ Hstep).
    destruct (is_confirm_invocation a); simpl; lia.
Qed.

Lemma run_balanced env acts : forall s s',
  run env s acts = Some s' -> balanced s -> balanced s'.
Proof.
  induction acts as [| a acts IH]; intros s s' Hrun Hs; simpl in *.
  - injection Hrun as <-. exact Hs.
  - destruct (step env s a) as [s1 |] eqn:Hstep; [| discriminate].
    eauto using step_balanced.
Qed.

(** ** Repeated invocations *)

(** C2 (as the code has it).  [confirm] has no guard on the loading
    flag: every invocation issues its own invoice request, also while an
    earlier one is pending.  In every run of the screen the number of
    invoice requests equals the number of invocations of [confirm], and
    the number of wallet calls does not exceed it: one invocation makes
    one request and at most one wallet call. *)
Theorem every_invocation_fetches (env : Env) (d : option Details)
    (o : option Origin) (acts : list Action) (s : Screen)
    (Hrun : run env (mount d o) acts = Some s) :
  count is_fetch (trace s) = length (List.filter is_confirm_invocation acts)
  /\ count is_pay (trace s) <= length (List.filter is_confirm_invocation acts).
Proof.
  pose proof (run_fetch_count env acts _ _ Hrun) as Hfetch.
  pose proof (run_balanced env acts _ _ Hrun (mount_balanced d o)) as [Hlen Hpay].
  simpl in Hfetch. change (count is_fetch []) with 0 in Hfetch.
  split; lia.
Qed.

(** C2 fails as stated: a second [confirm] while the first awaits its
    invoice (the loading flag is set) issues a second request, and both
    go on to call the wallet. *)
Lemma second_confirm_is_not_ignored :
  let start := mount (Some Sample.details) (Some Sample.origin) in
  let answer := FetchData (Some (Sample.invoice None)) in
  option_map loading (run Sample.accepting start [InvokeConfirm]) = Some true
  /\ option_map (fun s => (count is_fetch (trace s), count is_pay (trace s)))
       (run Sample.accepting start
          [InvokeConfirm; InvokeConfirm;
           FetchSettles 0 answer; FetchSettles 1 answer;
           PaySettles 0 Sample.paid; PaySettles 1 Sample.paid])
     = Some (2, 2).
Proof. split; reflexivity. Qed.

Lemma every_invocation_fetches_witness :
  exists s,
    run Sample.accepting (mount (Some Sample.details) (Some Sample.origin))
      [InvokeConfirm; InvokeConfirm] = Some s
    /\ count is_fetch (trace s) = 2.
Proof.
  eexists. split; [reflexivity |].
  apply (every_invocation_fetches Sample.accepting (Some Sample.details)
           (Some Sample.origin) [InvokeConfirm; InvokeConfirm]).
  reflexivity.
Defined.

(** ** The amount that is requested *)

Lemma closure_value s c : closure s = Some c -> c_valueMSat c = valueMSat s.
Proof.
  unfold closure. destruct (details s), (origin s); try discriminate.
  now intros [= <-].
Qed.

(** C5 (as the code has it).  [confirm] requests an invoice for the
    stored amount as it is: it issues one request whose amount is
    [valueMSat], with no comparison against [minSendable] or
    [maxSendable], and the number input's [onChange] stores the typed
    value times 1000 without one either.  So whatever is typed is what is
    requested. *)
Theorem confirm_requests_stored_amount (env : Env) (s : Screen) (c : Closure)
    (Hrendered : closure s = Some c) :
  (exists s', step env s InvokeConfirm = Some s'
     /\ trace s' = trace s
          ++ [SetLoading true; AxiosGet (callback (c_details c)) (valueMSat s)])
  /\ (editable s = true -> forall typed, exists s',
        run env s [ChangeSatoshi typed; InvokeConfirm] = Some s'
        /\ trace s' = trace s
             ++ [SetLoading true;
                 AxiosGet (callback (c_details c))
                   (ANum (Js.to_number typed * 1000))]).
Proof.
  split.
  - simpl. rewrite Hrendered. eexists. split; [reflexivity |].
    simpl. unfold confirm_begin. rewrite (closure_value s c Hrendered). reflexivity.
  - intros Hedit typed. simpl. rewrite Hedit.
    unfold closure in *. simpl.
    destruct (details s) as [d |], (origin s) as [o |]; try discriminate.
    injection Hrendered as <-. eexists. split; reflexivity.
Qed.

(** C5 fails as stated: with bounds 1000 and 100000 millisatoshi, typing
    200 satoshi and confirming requests an invoice for 200000. *)
Lemma amount_above_maximum_is_requested :
  option_map trace
    (run Sample.accepting (mount (Some Sample.details) (Some Sample.origin))
       [ChangeSatoshi "200"; InvokeConfirm])
  = Some [SetLoading true; AxiosGet "https://pay.example/cb" (ANum 200000)]
  /\ PrimFloat.leb 200000 (maxSendable Sample.details) = false.
Proof. split; reflexivity. Qed.

Lemma confirm_requests_stored_amount_witness :
  exists s',
    step Sample.accepting (mount (Some Sample.details) (Some Sample.origin))
      InvokeConfirm = Some s'
    /\ trace s' = [SetLoading true; AxiosGet "https://pay.example/cb" (ANum 1000)].
Proof.
  apply (confirm_requests_stored_amount Sample.accepting
           (mount (Some Sample.details) (Some Sample.origin))
           (Sample.closure (ANum 1000))).
  reflexivity.
Defined.

(** ** The two amount inputs *)

Lemma run_app env acts1 acts2 : forall s,
  run env s (acts1 ++ acts2)
  = match run env s acts1 with
    | Some s1 => run env s1 acts2
    | None => None
    end.
Proof.
  induction acts1 as [| a acts1 IH]; intros s; simpl; [reflexivity |].
  destruct (step env s a); [apply IH | reflexivity].
Qed.

Lemma shown_amounts_editable s :
  editable s = true ->
  shown_amounts s = Some (amount_number (valueMSat s) / 1000, valueMSat s)%float.
Proof.
  unfold editable, shown_amounts, render, closure, renderAmount.
  destruct (details s) as [d |], (origin s) as [o |]; try discriminate. simpl.
  destruct (PrimFloat.eqb (minSendable d) (maxSendable d)); [discriminate |].
  reflexivity.
Qed.

Lemma editable_set_valueMSat s v : editable (set_valueMSat s v) = editable s.
Proof.
  unfold editable, closure. simpl.
  destruct (details s), (origin s); reflexivity.
Qed.

(** Edits are always accepted while the inputs are on screen, and leave
    them on screen. *)
Lemma run_edits env acts : forall s,
  editable s = true -> forallb is_edit acts = true ->
  exists s', run env s acts = Some s' /\ editable s' = true.
Proof.
  induction acts as [| a acts IH]; intros s Hs Hacts; simpl in *.
  - eauto.
  - apply andb_prop in Hacts as [Ha Hacts].
    destruct a; try discriminate; simpl; rewrite Hs;
      apply IH; auto; rewrite editable_set_valueMSat; exact Hs.
Qed.

(** C7 (as the code has it).  The screen stores one amount, in
    millisatoshi, and both inputs show it: the range input as it is, the
    number input divided by 1000.  An edit of the number input stores the
    typed value times 1000, an edit of the range input stores its value
    unchanged, both in double arithmetic and with no rounding to whole
    millisatoshi; after any sequence of edits the stored amount is the
    one of the last edit. *)
Theorem amount_inputs_show_last_edit (env : Env) (s : Screen)
    (acts : list Action) (Heditable : editable s = true)
    (Hedits : forallb is_edit acts = true) :
  (forall typed, exists s',
     run env s (acts ++ [ChangeSatoshi typed]) = Some s'
     /\ valueMSat s' = ANum (Js.to_number typed * 1000)
     /\ shown_amounts s'
        = Some (Js.to_number typed * 1000 / 1000,
                ANum (Js.to_number typed * 1000))%float)
  /\ (forall slid, exists s',
        run env s (acts ++ [ChangeRange slid]) = Some s'
        /\ valueMSat s' = AStr slid
        /\ shown_amounts s' = Some (Js.to_number slid / 1000, AStr slid)%float).
Proof.
  destruct (run_edits env acts s Heditable Hedits) as (s1 & Hrun & Hs1).
  split; intros v; rewrite run_app, Hrun; simpl; rewrite Hs1;
    eexists; (split; [reflexivity |]); (split; [reflexivity |]);
    rewrite shown_amounts_editable by (rewrite editable_set_valueMSat; exact Hs1);
    reflexivity.
Qed.

(** C7 fails as stated.  Typing 1.001 satoshi stores an amount strictly
    between 1000 and 1001 millisatoshi, not 1001.  And with bounds that
    let the range input stand at 1001 millisatoshi, the number input
    shows a satoshi value whose product by 1000 is not 1001. *)
Lemma satoshi_and_millisatoshi_drift :
  let start := mount (Some Sample.details) (Some Sample.origin) in
  let fine := mount (Some Sample.fine_details) (Some Sample.origin) in
  (exists sat msat,
     option_map shown_amounts (run Sample.accepting start [ChangeSatoshi "1.001"])
       = Some (Some (sat, ANum msat))
     /\ PrimFloat.ltb 1000 msat = true /\ PrimFloat.ltb msat 1001 = true)
  /\ (exists sat,
        option_map shown_amounts (run Sample.accepting fine [ChangeRange "1001"])
          = Some (Some (sat, AStr "1001"))
        /\ PrimFloat.eqb (sat * 1000) (Js.to_number "1001") = false).
Proof.
  split.
  - eexists. eexists. split; [reflexivity |]. split; reflexivity.
  - eexists. split; [reflexivity |]. reflexivity.
Qed.

Lemma amount_inputs_show_last_edit_witness :
  exists s',
    run Sample.accepting (mount (Some Sample.details) (Some Sample.origin))
      ([ChangeRange "7000"] ++ [ChangeSatoshi "5"]) = Some s'
    /\ valueMSat s' = ANum 5000
    /\ shown_amounts s' = Some (5, ANum 5000)%float.
Proof.
  apply (amount_inputs_show_last_edit Sample.accepting
           (mount (Some Sample.details) (Some Sample.origin))
           [ChangeRange "7000"]); reflexivity.
Defined.

(** ** Rejecting *)

Lemma step_reject_trace env s s' :
  step env s InvokeReject = Some s' -> trace s' = trace s ++ reject.
Proof.
  simpl. destruct (closure s); [| discriminate]. now intros [= <-].
Qed.

(** C10.  [reject] reports "User rejected" through [msg.error] and does
    nothing else.  In a session in which [confirm] was not invoked, a
    rejection ends a trace that holds no invoice request and no wallet
    call. *)
Theorem reject_only_reports (env : Env) (d : option Details)
    (o : option Origin) (acts : list Action) (s : Screen)
    (Hbefore : List.filter is_confirm_invocation acts = [])
    (Hrun : run env (mount d o) (acts ++ [InvokeReject]) = Some s) :
  reject = [PreventDefault; MsgError "User rejected"]
  /\ (exists before,
        trace s = before ++ [PreventDefault; MsgError "User rejected"])
  /\ count is_fetch (trace s) = 0
  /\ count is_pay (trace s) = 0.
Proof.
  pose proof (run_fetch_count env _ _ _ Hrun) as Hfetch.
  pose proof (run_balanced env _ _ _ Hrun (mount_balanced d o)) as [Hlen Hpay].
  rewrite List.filter_app, Hbefore in Hfetch. simpl in Hfetch.
  change (count is_fetch []) with 0 in Hfetch.
  rewrite run_app in Hrun.
  destruct (run env (mount d o) acts) as [s1 |]; [| discriminate].
  cbn [run] in Hrun. destruct (step env s1 InvokeReject) as [s2 |] eqn:Hstep;
    [| discriminate].
  injection Hrun as <-.
  split; [reflexivity |]. split; [| split; lia].
  exists (trace s1). apply (step_reject_trace env s1 s2 Hstep).
Qed.

Lemma reject_only_reports_witness :
  exists s,
    run Sample.accepting (mount (Some Sample.details) (Some Sample.origin))
      ([ChangeSatoshi "5"] ++ [InvokeReject]) = Some s
    /\ count is_fetch (trace s) = 0 /\ count is_pay (trace s) = 0.
Proof.
  eexists. split; [reflexivity |].
  apply (reject_only_reports Sample.accepting (Some Sample.details)
           (Some Sample.origin) [ChangeSatoshi "5"]); reflexivity.
Defined.

(** ** More on one run of [confirm] *)

Lemma switch_never_sets_loading env sa :
  count is_set_loading (successActionSwitch env sa) = 0.
Proof.
  unfold successActionSwitch.
  destruct (tag_is sa "url"); [destruct (window_confirm env _) |
    destruct (tag_is sa "message")]; reflexivity.
Qed.

(** X1.  The loading flag brackets every run of [confirm]: the run
    starts by setting it, ends by resetting it (the [finally] block runs
    on every path) and does not touch it in between. *)
Theorem confirm_brackets_loading (env : Env) (c : Closure)
    (fetched : FetchResult) (paid : PayResult) :
  exists middle,
    confirm env c fetched paid = SetLoading true :: middle ++ [SetLoading false]
    /\ count is_set_loading middle = 0.
Proof.
  confirm_cases env c fetched paid; unfold catch_block, finally_block; simpl.
  all: try (eexists (_ :: nil); split; [reflexivity | reflexivity]).
  all: try (eexists (_ :: _ :: nil); split; [reflexivity | reflexivity]).
  all: try (eexists (_ :: _ :: _ :: nil); split; [reflexivity | reflexivity]).
  all: try (eexists (_ :: _ :: _ :: _ :: nil); split; [reflexivity | reflexivity]).
  all: try (eexists (_ :: _ :: _ :: _ :: _ :: nil); split; [reflexivity | reflexivity]).
  exists (AxiosGet (callback (c_details c)) (c_valueMSat c)
            :: VerifyInvoice info (metadata (c_details c)) (c_valueMSat c)
                 (VerifyReturns true)
            :: UtilsCall "lnurlPay" (c_origin c) (pr info)
            :: successActionSwitch env sa ++ [WindowClose]).
  split.
  - simpl. rewrite <- app_assoc. reflexivity.
  - rewrite !count_cons, count_app, switch_never_sets_loading. reflexivity.
Qed.

(** X2.  A paid invoice with the success action "message": the run shows
    one notification, titled "LNURL response:" and carrying the message
    as it came (missing included), shows no alert or dialog, and closes
    the window once. *)
Theorem message_action_notifies_once (env : Env) (c : Closure)
    (info : PaymentInfo) (sa : SuccessAction) (p : Payment)
    (Hvalid : verifyInvoice env info (metadata (c_details c)) (c_valueMSat c)
                = VerifyReturns true)
    (Haction : successAction info = Some sa)
    (Htag : tag sa = Some "message")
    (Hpaid : Js.truthy (payment_error p) = false) :
  confirm env c (FetchData (Some info)) (PayReturns (Some p))
  = [SetLoading true;
     AxiosGet (callback (c_details c)) (c_valueMSat c);
     VerifyInvoice info (metadata (c_details c)) (c_valueMSat c)
       (VerifyReturns true);
     UtilsCall "lnurlPay" (c_origin c) (pr info);
     Notify "LNURL response:" (sa_message sa);
     WindowClose;
     SetLoading false].
Proof.
  unfold confirm, confirm_fetched, confirm_paid, successActionSwitch.
  rewrite Hvalid, Haction, Hpaid.
  rewrite (tag_is_true sa "message" Htag).
  unfold tag_is. rewrite Htag. reflexivity.
Qed.

Lemma message_action_notifies_once_witness :
  count is_user_visible
    (confirm Sample.accepting (Sample.closure (ANum 1000))
       (FetchData (Some (Sample.invoice (Some (Sample.action "message")))))
       Sample.paid) = 1.
Proof.
  unfold Sample.paid.
  rewrite (message_action_notifies_once Sample.accepting
             (Sample.closure (ANum 1000))
             (Sample.invoice (Some (Sample.action "message")))
             (Sample.action "message")); reflexivity.
Defined.

(** X3.  Without a success action the wallet's answer is never read:
    whatever [utils.call] resolves to (a result with or without
    [payment_error], or [undefined]), the run closes the window and shows
    nothing.  With a success action an [undefined] or [null] answer
    makes the read of [payment_error] throw: the engine's [TypeError] is
    logged and alerted, whatever its wording, and the window stays
    open. *)
Theorem wallet_answer_read_only_for_success_action (env : Env) (c : Closure)
    (info : PaymentInfo)
    (Hvalid : verifyInvoice env info (metadata (c_details c)) (c_valueMSat c)
                = VerifyReturns true) :
  (successAction info = None ->
   forall payment,
     confirm env c (FetchData (Some info)) (PayReturns payment)
     = confirm_begin c
         ++ [VerifyInvoice info (metadata (c_details c)) (c_valueMSat c)
               (VerifyReturns true);
             UtilsCall "lnurlPay" (c_origin c) (pr info);
             WindowClose;
             SetLoading false])
  /\ (forall sa, successAction info = Some sa ->
        confirm env c (FetchData (Some info)) (PayReturns None)
        = confirm_begin c
            ++ [VerifyInvoice info (metadata (c_details c)) (c_valueMSat c)
                  (VerifyReturns true);
                UtilsCall "lnurlPay" (c_origin c) (pr info);
                ConsoleLog (type_error env "payment_error");
                Alert ("Error: "
                         ++ Js.to_string
                              (Js.message (type_error env "payment_error")))%string;
                SetLoading false]).
Proof.
  split.
  - intros Hnone payment. unfold confirm, confirm_fetched, confirm_paid.
    rewrite Hvalid, Hnone. reflexivity.
  - intros sa Hsome. unfold confirm, confirm_fetched, confirm_paid.
    rewrite Hvalid, Hsome. reflexivity.
Qed.

Lemma wallet_answer_read_only_for_success_action_witness :
  count is_close
    (confirm Sample.accepting (Sample.closure (ANum 1000))
       (FetchData (Some (Sample.invoice None))) (PayReturns None)) = 1.
Proof.
  rewrite (proj1 (wallet_answer_read_only_for_success_action Sample.accepting
                    (Sample.closure (ANum 1000)) (Sample.invoice None) eq_refl)
             eq_refl None).
  reflexivity.
Defined.

(** X4.  An error thrown by the invoice request, by the verification or
    by the wallet call is logged and shown as "Error: " followed by its
    message; the run then only resets the loading flag, so the window
    stays open.  A failed invoice request or verification also means the
    wallet is not called. *)
Theorem thrown_errors_are_alerted (env : Env) (c : Closure) (e : Js.error) :
  (forall paid,
     confirm env c (FetchThrows e) paid
     = confirm_begin c
         ++ [ConsoleLog e;
             Alert ("Error: " ++ Js.to_string (Js.message e))%string;
             SetLoading false])
  /\ (forall info paid,
        verifyInvoice env info (metadata (c_details c)) (c_valueMSat c)
          = VerifyThrows e ->
        confirm env c (FetchData (Some info)) paid
        = confirm_begin c
            ++ [VerifyInvoice info (metadata (c_details c)) (c_valueMSat c)
                  (VerifyThrows e);
                ConsoleLog e;
                Alert ("Error: " ++ Js.to_string (Js.message e))%string;
                SetLoading false])
  /\ (forall info,
        verifyInvoice env info (metadata (c_details c)) (c_valueMSat c)
          = VerifyReturns true ->
        confirm env c (FetchData (Some info)) (PayThrows e)
        = confirm_begin c
            ++ [VerifyInvoice info (metadata (c_details c)) (c_valueMSat c)
                  (VerifyReturns true);
                UtilsCall "lnurlPay" (c_origin c) (pr info);
                ConsoleLog e;
                Alert ("Error: " ++ Js.to_string (Js.message e))%string;
                SetLoading false]).
Proof.
  repeat split.
  - intros info paid Hthrow. unfold confirm, confirm_fetched.
    rewrite Hthrow. reflexivity.
  - intros info Hvalid. unfold confirm, confirm_fetched.
    rewrite Hvalid. reflexivity.
Qed.

(** ** One invocation inside the screen *)

Lemma apply_loading_app evs1 evs2 l :
  apply_loading (evs1 ++ evs2) l = apply_loading evs2 (apply_loading evs1 l).
Proof. unfold apply_loading. apply fold_left_app. Qed.

Lemma confirm_paid_resets_loading env info r l :
  apply_loading (confirm_paid env info r) l = false.
Proof.
  unfold confirm_paid. destruct r as [? | [p |]]; try reflexivity;
    destruct (successAction info); try reflexivity.
  rewrite apply_loading_app. reflexivity.
Qed.

Lemma confirm_fetched_resets_loading env c r l :
  snd (confirm_fetched env c r) = None ->
  apply_loading (fst (confirm_fetched env c r)) l = false.
Proof.
  unfold confirm_fetched. destruct r as [? | [info |]]; try reflexivity.
  destruct (verifyInvoice env info _ _) as [[|] | ?]; try reflexivity.
  discriminate.
Qed.

Lemma lookup_new_task (ts : list Task) t : (ts ++ [t]) !! length ts = Some t.
Proof. apply list_lookup_middle. reflexivity. Qed.

(** ** Edits while a request is pending *)

(** Edits change the stored amount and nothing else. *)
Lemma run_edits_frame env acts : forall s,
  editable s = true -> forallb is_edit acts = true ->
  exists s', run env s acts = Some s'
    /\ tasks s' = tasks s /\ trace s' = trace s /\ loading s' = loading s
    /\ details s' = details s /\ origin s' = origin s.
Proof.
  induction acts as [| a acts IH]; intros s Hs Hacts; simpl in *.
  - eauto 10.
  - apply andb_prop in Hacts as [Ha Hacts].
    destruct a as [| | | | v | v |]; try discriminate; simpl; rewrite Hs.
    + destruct (IH (set_valueMSat s (ANum (Js.to_number v * 1000))))
        as (s' & Hrun & H); [now rewrite editable_set_valueMSat | assumption |].
      exists s'. split; [exact Hrun | exact H].
    + destruct (IH (set_valueMSat s (AStr v)))
        as (s' & Hrun & H); [now rewrite editable_set_valueMSat | assumption |].
      exists s'. split; [exact Hrun | exact H].
Qed.

(** X6.  [confirm] works on the amount of the render it was invoked
    from.  Edits made while its invoice request is pending change the
    stored amount but not the run: the invoice is verified against the
    amount that was requested, and the events are those of a run without
    edits. *)
Theorem pending_request_ignores_edits (env : Env) (s : Screen) (c : Closure)
    (edits : list Action) (fetched : FetchResult)
    (Hrendered : closure s = Some c)
    (Heditable : editable s = true)
    (Hedits : forallb is_edit edits = true) :
  exists s',
    run env s (InvokeConfirm :: edits
                 ++ [FetchSettles (length (tasks s)) fetched]) = Some s'
    /\ trace s'
       = trace s ++ confirm_begin c ++ fst (confirm_fetched env c fetched)
    /\ c_valueMSat c = valueMSat s
    /\ (forall info, fetched = FetchData (Some info) ->
          In (VerifyInvoice info (metadata (c_details c)) (valueMSat s)
                (verifyInvoice env info (metadata (c_details c)) (valueMSat s)))
             (trace s')).
Proof.
  pose proof (closure_value s c Hrendered) as Hvalue.
  cbn [run step]. rewrite Hrendered.
  destruct (run_edits_frame env edits
              (emit s (confirm_begin c) (tasks s ++ [AwaitFetch c])))
    as (s1 & Hrun & Htasks & Htrace & _); [exact Heditable | exact Hedits |].
  rewrite run_app, Hrun. cbn [run step]. rewrite Htasks. cbn [tasks emit].
  rewrite lookup_new_task.
  destruct (confirm_fetched env c fetched) as [evs awaiting] eqn:Hfetched.
  eexists. split; [reflexivity |]. cbn [trace emit fst].
  rewrite Htrace. cbn [trace emit]. split; [| split].
  - rewrite <- app_assoc. reflexivity.
  - exact Hvalue.
  - intros info ->. rewrite <- Hvalue.
    apply List.in_or_app. right.
    unfold confirm_fetched in Hfetched.
    destruct (verifyInvoice env info _ _) as [[|] | ?];
      injection Hfetched as <- _; simpl; auto.
Qed.

Lemma pending_request_ignores_edits_witness :
  exists s',
    run Sample.refusing (mount (Some Sample.details) (Some Sample.origin))
      (InvokeConfirm :: [ChangeSatoshi "7"]
         ++ [FetchSettles 0 (FetchData (Some (Sample.invoice None)))]) = Some s'
    /\ valueMSat s' = ANum 7000
    /\ In (VerifyInvoice (Sample.invoice None) (Some "[]") (ANum 1000)
             (VerifyReturns false)) (trace s').
Proof.
  destruct (pending_request_ignores_edits Sample.refusing
              (mount (Some Sample.details) (Some Sample.origin))
              (Sample.closure (ANum 1000)) [ChangeSatoshi "7"]
              (FetchData (Some (Sample.invoice None))))
    as (s' & Hrun & _ & _ & Hverify); try reflexivity.
  exists s'. split; [exact Hrun |]. split.
  - simpl in Hrun. injection Hrun as <-. reflexivity.
  - apply (Hverify (Sample.invoice None)). reflexivity.
Defined.

(** ** Verification before payment, in every run *)

Lemma no_pay_follows_verification (t : list Event) :
  count is_pay t = 0 -> pay_follows_verification t.
Proof.
  intros Hnone i action o request Hi. exfalso.
  apply (count_zero_not_in is_pay t (UtilsCall action o request) Hnone eq_refl).
  apply list_elem_of_In. apply list_elem_of_lookup. eauto.
Qed.

Lemma pay_follows_verification_app (t1 t2 : list Event) :
  pay_follows_verification t1 -> pay_follows_verification t2 ->
  pay_follows_verification (t1 ++ t2).
Proof.
  intros H1 H2 i action o request Hi.
  apply lookup_app_Some in Hi as [Hi | [Hlen Hi]].
  - destruct (H1 _ _ _ _ Hi) as (j & info & md & amount & -> & Hj & Hrest).
    exists j, info, md, amount. split; [reflexivity |]. split; [| exact Hrest].
    apply lookup_app_l_Some. exact Hj.
  - destruct (H2 _ _ _ _ Hi) as (j & info & md & amount & Hij & Hj & Hrest).
    exists (length t1 + j), info, md, amount. split; [lia |].
    split; [| exact Hrest].
    rewrite lookup_app_r by lia.
    replace (length t1 + j - length t1) with j by lia. exact Hj.
Qed.

Lemma confirm_fetched_follows_verification env c r :
  pay_follows_verification (fst (confirm_fetched env c r)).
Proof.
  unfold confirm_fetched. destruct r as [? | [info |]];
    try (apply no_pay_follows_verification; reflexivity).
  destruct (verifyInvoice env info _ _) as [[|] | ?];
    try (apply no_pay_follows_verification; reflexivity).
  intros [| [| i]] action o request Hi; try discriminate.
  injection Hi as <- <- <-.
  exists 0, info, (metadata (c_details c)), (c_valueMSat c). auto.
Qed.

Lemma step_follows_verification env s a s' :
  step env s a = Some s' ->
  pay_follows_verification (trace s) -> pay_follows_verification (trace s').
Proof.
  intros Hstep Hs.
  destruct a as [| i r | i r | | v | v | data]; simpl in Hstep.
  - destruct (closure s); [| discriminate]. injection Hstep as <-.
    apply pay_follows_verification_app; [exact Hs |].
    apply no_pay_follows_verification. reflexivity.
  - destruct (tasks s !! i) as [[c | |] |]; try discriminate.
    pose proof (confirm_fetched_follows_verification env c r) as Hevs.
    destruct (confirm_fetched env c r) as [evs awaiting].
    injection Hstep as <-. apply pay_follows_verification_app; assumption.
  - destruct (tasks s !! i) as [[| c info |] |]; try discriminate.
    injection Hstep as <-. apply pay_follows_verification_app; [exact Hs |].
    apply no_pay_follows_verification. apply confirm_paid_counts.
  - destruct (closure s); [| discriminate]. injection Hstep as <-.
    apply pay_follows_verification_app; [exact Hs |].
    apply no_pay_follows_verification. reflexivity.
  - destruct (editable s); [| discriminate]. injection Hstep as <-. exact Hs.
  - destruct (editable s); [| discriminate]. injection Hstep as <-. exact Hs.
  - destruct (lookup_pending s); [| discriminate].
    destruct data; injection Hstep as <-; exact Hs.
Qed.

(** X7.  In every run of the screen, however invocations of [confirm]
    interleave, each wallet call comes right after a call of
    [lnurl.verifyInvoice] that returned true, and asks to pay the [pr] of
    the answer that was verified. *)
Theorem wallet_call_follows_verification (env : Env) (d : option Details)
    (o : option Origin) (acts : list Action) (s : Screen)
    (Hrun : run env (mount d o) acts = Some s) :
  forall i action who request,
    trace s !! i = Some (UtilsCall action who request) ->
    exists j info md amount,
      i = S j
      /\ trace s !! j = Some (VerifyInvoice info md amount (VerifyReturns true))
      /\ request = pr info
      /\ action = "lnurlPay".
Proof.
  assert (Hgen : forall acts s0 s1, run env s0 acts = Some s1 ->
            pay_follows_verification (trace s0) ->
            pay_follows_verification (trace s1)).
  { clear. induction acts as [| a acts IH]; intros s0 s1 Hrun H0; simpl in Hrun.
    - injection Hrun as <-. exact H0.
    - destruct (step env s0 a) as [s' |] eqn:Hstep; [| discriminate].
      eauto using step_follows_verification. }
  apply (Hgen acts _ _ Hrun). apply no_pay_follows_verification. reflexivity.
Qed.

Lemma wallet_call_follows_verification_witness :
  exists j info md amount,
    3 = S j
    /\ [SetLoading true;
        AxiosGet "https://pay.example/cb" (ANum 1000);
        VerifyInvoice (Sample.invoice None) (Some "[]") (ANum 1000)
          (VerifyReturns true);
        UtilsCall "lnurlPay" Sample.origin (Some "lnbc50n1example")] !! j
       = Some (VerifyInvoice info md amount (VerifyReturns true))
    /\ Some "lnbc50n1example" = pr info
    /\ "lnurlPay" = "lnurlPay".
Proof.
  apply (wallet_call_follows_verification Sample.accepting (Some Sample.details)
           (Some Sample.origin)
           [InvokeConfirm; FetchSettles 0 (FetchData (Some (Sample.invoice None)))]
           _ eq_refl 3 "lnurlPay" Sample.origin (Some "lnbc50n1example")).
  reflexivity.
Defined.

(** ** Mounting the screen *)

(** X8.  The page lookup starts only when both [details] and [origin]
    are missing, but the screen waits as soon as one of them is.  Mounted
    with exactly one of the two, it shows the loading view and accepts no
    action at all: nothing can be confirmed, rejected or edited, and no
    lookup answer is awaited. *)
Theorem half_missing_props_stay_loading (env : Env) (d : Details) (o : Origin)
    (a : Action) (rest : list Action) :
  render (mount (Some d) None) = LoadingView
  /\ render (mount None (Some o)) = LoadingView
  /\ run env (mount (Some d) None) (a :: rest) = None
  /\ run env (mount None (Some o)) (a :: rest) = None.
Proof.
  repeat split; destruct a; reflexivity.
Qed.

(** X9.  When the details come from the page lookup, the stored amount
    is not updated: it was initialised to 0 while the details were
    missing, and [setDetails] leaves it alone.  Confirming right after
    the lookup requests an invoice for 0 millisatoshi, whatever
    [minSendable] is; when the bounds coincide the screen meanwhile shows
    [minSendable / 1000]. *)
Theorem looked_up_details_request_zero (env : Env) (ld : LightningData) :
  exists s1 s2,
    run env (mount None None) [LookupSettles (Some ld)] = Some s1
    /\ run env s1 [InvokeConfirm] = Some s2
    /\ trace s2
       = [SetLoading true; AxiosGet (callback (ln_details ld)) (ANum 0)]
    /\ (PrimFloat.eqb (minSendable (ln_details ld)) (maxSendable (ln_details ld))
          = true ->
        render s1
        = PayView (ln_name ld) (ln_icon ld) (domain (ln_details ld))
            (FixedAmount (minSendable (ln_details ld) / 1000)) false).
Proof.
  eexists. eexists. split; [reflexivity |]. split; [reflexivity |].
  split; [reflexivity |].
  intros Hfixed. unfold render, renderAmount. simpl. rewrite Hfixed. reflexivity.
Qed.

(** ** A fixed amount *)

Lemma requests_only_app v t1 t2 :
  requests_only v t1 -> requests_only v t2 -> requests_only v (t1 ++ t2).
Proof. unfold requests_only. intros H1 H2. apply Forall_app. auto. Qed.

Lemma no_fetch_requests_only v t : count is_fetch t = 0 -> requests_only v t.
Proof.
  intros Hnone. apply Forall_forall. intros e He.
  destruct e as [? | cb amount | ? ? ? ? | ? ? ? | ? | ? ? | ? | ? ? | | ? | | ?];
    try exact I.
  exfalso. apply list_elem_of_In in He.
  exact (count_zero_not_in is_fetch t (AxiosGet cb amount) Hnone eq_refl He).
Qed.

(** What a screen mounted with coinciding bounds keeps. *)
Lemma step_fixed env d o v s a s' :
  PrimFloat.eqb (minSendable d) (maxSendable d) = true ->
  step env s a = Some s' ->
  details s = Some d /\ origin s = Some o /\ valueMSat s = v
    /\ lookup_pending s = false /\ requests_only v (trace s) ->
  is_edit a = false
  /\ details s' = Some d /\ origin s' = Some o /\ valueMSat s' = v
  /\ lookup_pending s' = false /\ requests_only v (trace s').
Proof.
  intros Hfixed Hstep (Hd & Ho & Hv & Hl & Ht).
  assert (Hc : closure s = Some (mkClosure d o v))
    by (unfold closure; rewrite Hd, Ho, Hv; reflexivity).
  assert (He : editable s = false)
    by (unfold editable; rewrite Hc; simpl; rewrite Hfixed; reflexivity).
  destruct a as [| i r | i r | | typed | slid | data]; simpl in Hstep.
  - rewrite Hc in Hstep. injection Hstep as <-. simpl.
    repeat split; auto. apply requests_only_app; [exact Ht |].
    repeat constructor.
  - destruct (tasks s !! i) as [[c | |] |]; try discriminate.
    pose proof (confirm_fetched_counts env c r) as [Hnone _].
    destruct (confirm_fetched env c r) as [evs awaiting].
    injection Hstep as <-. simpl in *. repeat split; auto.
    apply requests_only_app; [exact Ht | now apply no_fetch_requests_only].
  - destruct (tasks s !! i) as [[| c info |] |]; try discriminate.
    injection Hstep as <-. simpl. repeat split; auto.
    apply requests_only_app; [exact Ht |].
    apply no_fetch_requests_only. apply confirm_paid_counts.
  - rewrite Hc in Hstep. injection Hstep as <-. simpl. repeat split; auto.
    apply requests_only_app; [exact Ht |].
    apply no_fetch_requests_only. reflexivity.
  - rewrite He in Hstep. discriminate.
  - rewrite He in Hstep. discriminate.
  - rewrite Hl in Hstep. discriminate.
Qed.

(** X10.  With [minSendable === maxSendable] in the props the amount is
    fixed: the screen shows [minSendable / 1000] with no inputs, no run
    contains an accepted edit, the stored amount stays what the mount
    made it ([minSendable || 0]) and every invoice request asks for it. *)
Theorem coinciding_bounds_fix_amount (env : Env) (d : Details) (o : Origin)
    (acts : list Action) (s : Screen)
    (Hfixed : PrimFloat.eqb (minSendable d) (maxSendable d) = true)
    (Hrun : run env (mount (Some d) (Some o)) acts = Some s) :
  forallb (fun a => negb (is_edit a)) acts = true
  /\ valueMSat s = (if Js.truthy_num (minSendable d) then ANum (minSendable d)
                    else ANum 0)
  /\ render s
     = PayView (name o) (icon o) (domain d)
         (FixedAmount (minSendable d / 1000)) (loading s)
  /\ requests_only (valueMSat s) (trace s).
Proof.
  set (v := initial_valueMSat (Some d)).
  assert (Hgen : forall acts s0 s1, run env s0 acts = Some s1 ->
            details s0 = Some d /\ origin s0 = Some o /\ valueMSat s0 = v
              /\ lookup_pending s0 = false /\ requests_only v (trace s0) ->
            forallb (fun a => negb (is_edit a)) acts = true
            /\ details s1 = Some d /\ origin s1 = Some o /\ valueMSat s1 = v
            /\ requests_only v (trace s1)).
  { clear acts s Hrun.
    induction acts as [| a acts IH]; intros s0 s1 Hrun H0; simpl in Hrun.
    - injection Hrun as <-. simpl. tauto.
    - destruct (step env s0 a) as [s' |] eqn:Hstep; [| discriminate].
      destruct (step_fixed env d o v s0 a s' Hfixed Hstep H0) as [Ha H'].
      destruct (IH _ _ Hrun H') as [Hacts H1].
      split; [| exact H1]. simpl. rewrite Ha. exact Hacts. }
  destruct (Hgen acts _ _ Hrun) as (Hacts & Hd & Ho & Hv & Ht).
  { simpl. repeat split. constructor. }
  split; [exact Hacts |]. split; [exact Hv |]. split.
  - unfold render, renderAmount. rewrite Hd, Ho, Hfixed. reflexivity.
  - rewrite Hv. exact Ht.
Qed.

Lemma coinciding_bounds_fix_amount_witness :
  exists s,
    run Sample.accepting (mount (Some Sample.fixed_details) (Some Sample.origin))
      [InvokeConfirm; InvokeReject] = Some s
    /\ valueMSat s = ANum 1000
    /\ render s
       = PayView "Example shop" "https://pay.example/icon.png" "pay.example"
           (FixedAmount 1) true.
Proof.
  eexists. split; [reflexivity |].
  destruct (coinciding_bounds_fix_amount Sample.accepting Sample.fixed_details
              Sample.origin [InvokeConfirm; InvokeReject] _ eq_refl eq_refl)
    as (_ & Hvalue & Hview & _).
  split; [exact Hvalue | exact Hview].
Defined.

(** X11.  A page without lightning data ([data[0]] unset) leaves the
    screen where it was: mounted without props it goes on showing the
    loading view, the lookup is not repeated, and no action is accepted
    any more. *)
Theorem empty_lookup_stays_loading (env : Env) (a : Action)
    (rest : list Action) :
  exists s,
    run env (mount None None) [LookupSettles None] = Some s
    /\ render s = LoadingView
    /\ trace s = []
    /\ run env s (a :: rest) = None.
Proof.
  eexists. split; [reflexivity |]. repeat split. destruct a; reflexivity.
Qed.

(** ** The loading flag and pending invocations *)

(** X12.  The loading flag is reset by whichever invocation of [confirm]
    finishes, however many others are still pending: a settled wallet
    call, or a settled invoice request that does not lead to a wallet
    call, leaves the flag false and touches no task but its own. *)
Theorem finished_invocation_resets_loading (env : Env) (s s' : Screen)
    (i : nat) :
  (forall r, step env s (PaySettles i r) = Some s' ->
     loading s' = false /\ tasks s' = <[i := Finished]> (tasks s))
  /\ (forall r, step env s (FetchSettles i r) = Some s' ->
        tasks s' !! i = Some Finished ->
        loading s' = false /\ tasks s' = <[i := Finished]> (tasks s)).
Proof.
  split; intros r Hstep; simpl in Hstep.
  - destruct (tasks s !! i) as [[| c info |] |]; try discriminate.
    injection Hstep as <-. simpl. split; [| reflexivity].
    apply confirm_paid_resets_loading.
  - destruct (tasks s !! i) as [[c | |] |] eqn:Hi; try discriminate.
    pose proof (confirm_fetched_resets_loading env c r (loading s)) as Hreset.
    destruct (confirm_fetched env c r) as [evs [info |]];
      injection Hstep as <-; simpl in *; intros Hdone.
    + rewrite list_lookup_insert_eq in Hdone; [discriminate |].
      apply lookup_lt_Some in Hi. exact Hi.
    + split; [auto | reflexivity].
Qed.
